(** * backend_proxy: the Express gateway and its proxy routes

    A shallow embedding of the two server programs of the repository:

    - [Gateway] is the server of [src/unnamed/part_001] (environment-driven
      targets, classified proxy errors, [/health] and [/diagnostic]);
    - [Server] is the server of [src/server.js] (fixed targets, one
      unclassified proxy error, [/health]).

    Both are Express 4 applications that mount http-proxy-middleware
    handlers.  The parts of the libraries that the programs rely on are
    embedded in [Express] and [Hpm]:

    - a request runs through the registered layers in registration order;
      [app.use(p, h)] matches a pathname that continues [p] at a segment
      boundary, [app.get(p, h)] matches [p] up to one trailing slash, both
      ignoring letter case (Express defaults: no strict routing, no case
      sensitive routing); a layer without a path matches every pathname,
      and ['*'] matches every pathname that percent-decodes and raises an
      error on the others;
    - [cors] ends an OPTIONS request with 204 and lets the others through;
      [express.json] lets a request through or fails with [next(err)];
    - the proxy handler restores the original request URL, applies the first
      [pathRewrite] rule whose regular expression matches it, joins the
      result to the target's path as http-proxy's [urlJoin] does, forwards
      the request once, and passes a transport failure to [onError]; with
      a backend that stays silent, the connection is closed when the
      configured [timeout] expires, without a response.

    [app] is the whole stack and [serve] runs it; [handle] runs the layers
    after [cors] and [express.json], for a request these two let through,
    and [handle_fault] runs them for a request that [express.json] failed.
    What the handlers print on the console has no effect on responses and
    is left out. *)

From Stdlib Require Import Bool List String Ascii ZArith NArith Lia.
Import ListNotations.
Open Scope string_scope.

(* ================================================================== *)
(** ** JavaScript values, errors and HTTP messages *)

Module Js.

(** The values that the programs hand to [res.json]. *)
#[warnings="-register-all"]
Inductive Value :=
| JUndefined
| JString (s : string)
| JNumber (n : Z)
| JObject (fields : list (string * Value)).

(** [a || b] on an environment variable: unset and empty are both falsy. *)
Definition or_default (a : option string) (b : string) : string :=
  match a with
  | Some (String c s) => String c s
  | _ => b
  end.

(** Property lookup on an object literal (first binding of the key). *)
Fixpoint lookup (k : string) (fields : list (string * Value)) : option Value :=
  match fields with
  | [] => None
  | (k', v) :: rest => if String.eqb k k' then Some v else lookup k rest
  end.

Definition get (k : string) (v : Value) : option Value :=
  match v with
  | JObject fields => lookup k fields
  | _ => None
  end.


(** The assignment [obj[k] = v]: an existing property keeps its place, a new
    one is added last. *)
Fixpoint set (k : string) (v : Value) (fields : list (string * Value))
    : list (string * Value) :=
  match fields with
  | [] => [(k, v)]
  | (k', v') :: rest =>
      if String.eqb k k' then (k, v) :: rest else (k', v') :: set k v rest
  end.


(** An [Error] as the handlers read it: [err.code], [err.message] and the
    stack trace [err.stack]. *)
Record Error := {
  code : option string;
  message : string;
  stack : string
}.

Definition of_option (o : option string) : Value :=
  match o with
  | Some s => JString s
  | None => JUndefined
  end.

End Js.
Import Js.

(** An incoming request: the method, the original URL (path and query), and
    what [express.json] makes of the body: [None] when there is nothing to
    parse or the body parses, [Some err] when reading or parsing it fails
    and the parser calls [next(err)]. *)
Record Request := {
  method : string;
  url : string;
  body_fault : option Js.Error
}.

(** A response: the status and the value given to [res.json]; [JUndefined]
    is the empty body of [res.end()]. *)
Record Response := {
  status : Z;
  body : Value
}.

(** Result of one upstream call made by the proxy: a reply, a transport
    error, or nothing at all. *)
Inductive Outcome :=
| Replied (r : Response)
| Failed (e : Js.Error)
| Silent.

(** Result of one [fetch] made by the diagnostic route. *)
Inductive FetchResult :=
| FetchOk (statusCode : Z)
| FetchErr (e : Js.Error).

(** Outbound calls, in the order they are issued. *)
Inductive Event :=
| Dispatch (target meth path : string) (timeout : option Z)
| Fetch (furl meth : string) (timeout : Z).

(** Everything outside the process: the clock read by
    [new Date().toISOString()], the backends and [fetch]. *)
Record World := {
  now : string;
  backend : string -> string -> string -> Outcome;
  fetch : string -> FetchResult
}.

(* ================================================================== *)
(** ** Express 4 routing *)

Module Express.

Definition lower (c : ascii) : ascii :=
  let n := N_of_ascii c in
  if ((65 <=? n) && (n <=? 90))%N then ascii_of_N (n + 32) else c.

Definition upper (c : ascii) : ascii :=
  let n := N_of_ascii c in
  if ((97 <=? n) && (n <=? 122))%N then ascii_of_N (n - 32) else c.

Fixpoint lowercase (s : string) : string :=
  match s with
  | EmptyString => EmptyString
  | String c s' => String (lower c) (lowercase s')
  end.

Fixpoint uppercase (s : string) : string :=
  match s with
  | EmptyString => EmptyString
  | String c s' => String (upper c) (uppercase s')
  end.

(** [strip_ci p s]: what follows [p] in [s] when [s] starts with [p] up to
    letter case (the [i] flag of the layer's regular expression). *)
Fixpoint strip_ci (p s : string) : option string :=
  match p with
  | EmptyString => Some s
  | String a p' =>
      match s with
      | EmptyString => None
      | String b s' => if Ascii.eqb (lower a) (lower b) then strip_ci p' s' else None
      end
  end.

(** The lookahead [(?=\/|$)]: the end of the path or a slash. *)
Definition boundary (rest : string) : bool :=
  match rest with
  | EmptyString => true
  | String c _ => Ascii.eqb c "/"
  end.

(** The regular expression of [app.use(mount, ...)], [^mount\/?(?=\/|$)]
    with flag [i], for a mount path of literal characters. *)
Definition mount_match (mount path : string) : bool :=
  match strip_ci mount path with
  | Some rest => boundary rest
  | None => false
  end.

(** The regular expression of [app.get(path, ...)], [^path\/?$] with flag
    [i]. *)
Definition route_match (rpath path : string) : bool :=
  match strip_ci rpath path with
  | Some rest => String.eqb rest "" || String.eqb rest "/"
  | None => false
  end.

(** A [GET] route also serves [HEAD]. *)
Definition get_method (m : string) : bool :=
  String.eqb m "GET" || String.eqb m "HEAD".

(** The pathname of a request URL: everything before the first [?]. *)
Fixpoint pathname (u : string) : string :=
  match u with
  | EmptyString => EmptyString
  | String c u' => if Ascii.eqb c "?" then EmptyString else String c (pathname u')
  end.

(** The rest of the URL, from the first [?] on. *)
Fixpoint search (u : string) : string :=
  match u with
  | EmptyString => EmptyString
  | String c u' => if Ascii.eqb c "?" then u else search u'
  end.

(** Printable ASCII other than [#] and the characters that Node's
    [url.parse] escapes (double and single quote, angle brackets,
    backslash, caret, backquote, braces and bar). *)
Definition ordinary_char (c : ascii) : bool :=
  let n := N_of_ascii c in
  ((33 <=? n) && (n <=? 126))%N
  && negb (existsb (N.eqb n) [34; 35; 39; 60; 62; 92; 94; 96; 123; 124; 125]%N).

(** A request target in origin form, made of such characters.  On these
    [parseurl] takes its fast path, where the pathname is [pathname], and
    [url.parse(u).path] is [u] itself. *)
Definition origin_form (u : string) : bool :=
  match u with
  | String "/" _ => forallb ordinary_char (list_ascii_of_string u)
  | _ => false
  end.

Definition hex_value (c : ascii) : option N :=
  let n := N_of_ascii c in
  if ((48 <=? n) && (n <=? 57))%N then Some (n - 48)%N
  else if ((65 <=? n) && (n <=? 70))%N then Some (n - 55)%N
  else if ((97 <=? n) && (n <=? 102))%N then Some (n - 87)%N
  else None.

(** Where [decodeURIComponent] stands in a UTF-8 sequence: between
    characters, or before [more] continuation bytes of which the next one
    lies in [[lo, hi]]. *)
Inductive Utf8 :=
| Between
| Inside (more : nat) (lo hi : N).

(** One decoded byte. *)
Definition utf8_step (st : Utf8) (b : N) : option Utf8 :=
  match st with
  | Between =>
      if (b <? 128)%N then Some Between
      else if ((194 <=? b) && (b <=? 223))%N then Some (Inside 1 128 191)
      else if (b =? 224)%N then Some (Inside 2 160 191)
      else if (b =? 237)%N then Some (Inside 2 128 159)
      else if ((225 <=? b) && (b <=? 239))%N then Some (Inside 2 128 191)
      else if (b =? 240)%N then Some (Inside 3 144 191)
      else if ((241 <=? b) && (b <=? 243))%N then Some (Inside 3 128 191)
      else if (b =? 244)%N then Some (Inside 3 128 143)
      else None
  | Inside more lo hi =>
      if ((lo <=? b) && (b <=? hi))%N then
        match more with
        | S (S k) => Some (Inside (S k) 128 191)
        | _ => Some Between
        end
      else None
  end.

(** [decodeURIComponent(s)] returns: every [%] starts an escape of two
    hexadecimal digits, and the escaped bytes above 127 form UTF-8
    sequences, each byte of a sequence being escaped. *)
Fixpoint decodes (st : Utf8) (s : string) : bool :=
  match s with
  | EmptyString => match st with Between => true | _ => false end
  | String c s' =>
      if Ascii.eqb c "%" then
        match s' with
        | String h1 (String h2 s'') =>
            match hex_value h1, hex_value h2 with
            | Some a, Some b =>
                match utf8_step st (16 * a + b) with
                | Some st' => decodes st' s''
                | None => false
                end
            | _, _ => false
            end
        | _ => false
        end
      else
        match st with
        | Between => decodes Between s'
        | _ => false
        end
  end.

Definition decodable (s : string) : bool := decodes Between s.

(** The error of [decode_param] for a path that does not decode. *)
Definition decode_failure (val : string) : Js.Error :=
  {| code := None;
     message := "Failed to decode param '" ++ val ++ "'";
     stack := "URIError: URI malformed" |}.

(** What matching a layer of [app.use] against a path gives. *)
Inductive Match :=
| Hit
| Miss
| Raise (e : Js.Error).

(** [app.use(fn)] is mounted on ['/'] and matches at once; ['*'] matches
    at once too but decodes the path as its parameter, which can throw;
    any other mount path goes through its regular expression. *)
Definition use_match (mount path : string) : Match :=
  if String.eqb mount "/" then Hit
  else if String.eqb mount "*" then
    if decodable path then Hit else Raise (decode_failure path)
  else if mount_match mount path then Hit else Miss.

(** What a handler does: call [next()], call [next(err)], issue the calls of
    [trace] and send [res], or issue them and never write a response, the
    socket being closed after [limit] milliseconds when a limit is set. *)
Inductive Step :=
| Next
| Fail (e : Js.Error)
| Done (trace : list Event) (res : Response)
| Stall (trace : list Event) (limit : option Z).

Definition Handler := World -> Request -> Step.
Definition ErrorHandler := Js.Error -> World -> Request -> Response.

Inductive Layer :=
| Use (mount : string) (h : Handler)
| Get (rpath : string) (h : Handler)
| UseError (h : ErrorHandler).

(** The end of a request: a response was sent after the calls of the trace;
    or every layer was passed and Express's final handler takes over; or no
    response is ever written and the connection is closed after [limit]
    milliseconds, if ever. *)
Inductive Reply :=
| Sent (trace : list Event) (res : Response)
| Unhandled (err : option Js.Error)
| NoReply (trace : list Event) (limit : option Z).

(** The router loop.  [err] is the pending error of [next(err)]: while it is
    set only error layers run, and they are skipped otherwise. *)
Fixpoint run (stack : list Layer) (err : option Js.Error)
    (w : World) (req : Request) : Reply :=
  match stack with
  | [] => Unhandled err
  | Use mount h :: rest =>
      match err with
      | Some _ => run rest err w req
      | None =>
          match use_match mount (pathname (url req)) with
          | Hit =>
              match h w req with
              | Next => run rest None w req
              | Fail e => run rest (Some e) w req
              | Done t r => Sent t r
              | Stall t limit => NoReply t limit
              end
          | Miss => run rest None w req
          | Raise e => run rest (Some e) w req
          end
      end
  | Get rpath h :: rest =>
      match err with
      | Some _ => run rest err w req
      | None =>
          if route_match rpath (pathname (url req)) && get_method (method req) then
            match h w req with
            | Next => run rest None w req
            | Fail e => run rest (Some e) w req
            | Done t r => Sent t r
            | Stall t limit => NoReply t limit
            end
          else run rest None w req
      end
  | UseError h :: rest =>
      match err with
      | Some e => Sent [] (h e w req)
      | None => run rest None w req
      end
  end.

(** The outbound calls of a request. *)
Definition trace_of (r : Reply) : list Event :=
  match r with
  | Sent t _ => t
  | NoReply t _ => t
  | Unhandled _ => []
  end.

End Express.
Import Express.

(* ================================================================== *)
(** ** http-proxy-middleware and http-proxy: the path sent upstream *)

Module Hpm.

(** The characters with a meaning of their own in a regular expression. *)
Definition regex_meta (c : ascii) : bool :=
  existsb (Ascii.eqb c)
    (list_ascii_of_string "\^$.|?*+()[]{}").

(** Text that a regular expression matches literally, character by
    character, and that [String.prototype.replace] inserts as it is. *)
Definition plain (s : string) : bool :=
  forallb (fun c => negb (regex_meta c)) (list_ascii_of_string s).

(** [strip p s]: what follows [p] in [s] when [s] starts with [p]. *)
Fixpoint strip (p s : string) : option string :=
  match p with
  | EmptyString => Some s
  | String a p' =>
      match s with
      | EmptyString => None
      | String b s' => if Ascii.eqb a b then strip p' s' else None
      end
  end.

(** [s.replace(new RegExp(lit), value)] for literal text [lit]: the
    leftmost occurrence is replaced; [None] when there is none. *)
Fixpoint replace_first (lit value s : string) : option string :=
  match strip lit s with
  | Some rest => Some (value ++ rest)
  | None =>
      match s with
      | EmptyString => None
      | String c s' => option_map (String c) (replace_first lit value s')
      end
  end.

(** One [pathRewrite] entry [key: value] applied to [path]: [new RegExp(key)]
    is tested, and on success [path.replace] is the result.  A key [^lit]
    is anchored at the start of the path.  The embedding covers keys whose
    text after an optional leading [^] is [plain]. *)
Definition apply_rule (key value path : string) : option string :=
  match key with
  | String "^" lit => option_map (append value) (strip lit path)
  | _ => replace_first key value path
  end.

(** [rewritePath]: the first rule that matches rewrites the path and ends
    the loop; without one the path is unchanged. *)
Fixpoint rewritePath (rules : list (string * string)) (path : string) : string :=
  match rules with
  | [] => path
  | (key, value) :: rest =>
      match apply_rule key value path with
      | Some result => result
      | None => rewritePath rest path
      end
  end.

(** ** The target's path and [urlJoin] *)

(** What follows the first [://]. *)
Fixpoint after_scheme (t : string) : option string :=
  match strip "://" t with
  | Some rest => Some rest
  | None =>
      match t with
      | EmptyString => None
      | String _ t' => after_scheme t'
      end
  end.

(** The authority ends at the first [/], [?] or [#]. *)
Fixpoint skip_authority (s : string) : string :=
  match s with
  | EmptyString => EmptyString
  | String c s' =>
      if Ascii.eqb c "/" || Ascii.eqb c "?" || Ascii.eqb c "#" then s
      else skip_authority s'
  end.

Fixpoint before_hash (s : string) : string :=
  match s with
  | EmptyString => EmptyString
  | String c s' => if Ascii.eqb c "#" then EmptyString else String c (before_hash s')
  end.

(** [url.parse(target).path] for a target [scheme://authority] followed by
    an optional path and query: the pathname, [/] when there is none, and
    the query. *)
Definition target_path (t : string) : string :=
  match after_scheme t with
  | None => EmptyString
  | Some rest =>
      match before_hash (skip_authority rest) with
      | EmptyString => "/"
      | String c tail =>
          if Ascii.eqb c "/" then String c tail else String "/" (String c tail)
      end
  end.

Definition is_digit (c : ascii) : bool :=
  let n := N_of_ascii c in ((48 <=? n) && (n <=? 57))%N.

(** The characters of a host name that [url.parse] keeps as they are. *)
Definition host_char (c : ascii) : bool :=
  let n := N_of_ascii c in
  ((48 <=? n) && (n <=? 57))%N || ((65 <=? n) && (n <=? 90))%N
  || ((97 <=? n) && (n <=? 122))%N
  || Ascii.eqb c "." || Ascii.eqb c "-" || Ascii.eqb c "_" || Ascii.eqb c "+".

Fixpoint host_of (a : string) : string :=
  match a with
  | EmptyString => EmptyString
  | String c a' => if Ascii.eqb c ":" then EmptyString else String c (host_of a')
  end.

Fixpoint port_of (a : string) : option string :=
  match a with
  | EmptyString => None
  | String c a' => if Ascii.eqb c ":" then Some a' else port_of a'
  end.

(** No label of the host name has more than 63 characters. *)
Fixpoint labels_ok (h : string) (len : nat) : bool :=
  match h with
  | EmptyString => true
  | String c h' =>
      if Ascii.eqb c "." then labels_ok h' 0
      else Nat.ltb len 63 && labels_ok h' (S len)
  end.

Definition authority_ok (a : string) : bool :=
  negb (String.eqb (host_of a) "")
  && forallb host_char (list_ascii_of_string (host_of a))
  && labels_ok (host_of a) 0
  && Nat.leb (String.length (host_of a)) 255
  && match port_of a with
     | None => true
     | Some p => forallb is_digit (list_ascii_of_string p)
     end.

(** A base URL: [http://] or [https://], a host name and an optional
    port, and nothing after them. *)
Definition base_url (t : string) : bool :=
  match strip "http://" t with
  | Some a => authority_ok a
  | None =>
      match strip "https://" t with
      | Some a => authority_ok a
      | None => false
      end
  end.

(** [.replace(/\/+/g, '/')] *)
Fixpoint collapse (s : string) : string :=
  match s with
  | EmptyString => EmptyString
  | String c s' =>
      if Ascii.eqb c "/" then
        match s' with
        | String "/" _ => collapse s'
        | _ => String c (collapse s')
        end
      else String c (collapse s')
  end.

(** [s.replace(lit, value)] with a string pattern: the first occurrence. *)
Definition replace_once (lit value s : string) : string :=
  match replace_first lit value s with
  | Some r => r
  | None => s
  end.

(** [[a, b].filter(Boolean).join('/')] *)
Definition join_nonempty (a b : string) : string :=
  match a, b with
  | EmptyString, _ => b
  | _, EmptyString => a
  | _, _ => a ++ "/" ++ b
  end.

(** http-proxy's [urlJoin(targetPath, path)]: the query of [path] is set
    aside, the two paths are joined with a slash, runs of slashes become
    one slash, a scheme that lost a slash gets it back, and the query is
    put back. *)
Definition urlJoin (targetPath path : string) : string :=
  replace_once "https:/" "https://"
    (replace_once "http:/" "http://"
       (collapse (join_nonempty targetPath (pathname path))))
  ++ search path.

(** ** The proxy handler *)

(** The options object given to [createProxyMiddleware]. *)
Record Options := {
  pathRewrite : list (string * string);
  target : string;
  changeOrigin : bool;
  timeout : option Z;
  onError : Js.Error -> Request -> string -> Response
}.

(** The original URL after [pathRewrite]. *)
Definition rewritten (o : Options) (req : Request) : string :=
  rewritePath (pathRewrite o) (url req).

(** The path sent upstream: the rewritten URL joined to the target's path.
    (For a rewritten URL that is empty or an [origin_form] one or a query
    alone, [url.parse] returns it as its [path].) *)
Definition forwarded_path (o : Options) (req : Request) : string :=
  urlJoin (target_path (target o)) (rewritten o req).

(** The handler: rewrite the original URL, forward once, then stream the
    reply back as it is, or answer a transport error with [onError], or,
    when the backend stays silent, write nothing: the socket's [timeout],
    if set, closes the connection.  It never calls [next()]. *)
Definition createProxyMiddleware (o : Options) : Handler :=
  fun w req =>
    let call := Dispatch (target o) (method req) (forwarded_path o req) (timeout o) in
    match backend w (target o) (method req) (forwarded_path o req) with
    | Replied r => Done [call] r
    | Failed e => Done [call] (onError o e req (now w))
    | Silent => Stall [call] (timeout o)
    end.

End Hpm.
Import Hpm.

(** A proxy registration [app.use(mount, createProxyMiddleware(options))]. *)
Record Route := {
  mount : string;
  options : Options
}.

Definition proxy_layer (r : Route) : Layer :=
  Use (mount r) (createProxyMiddleware (options r)).

(** The first registration, in order, whose mount path matches. *)
Definition match_route (routes : list Route) (path : string) : option Route :=
  find (fun r => mount_match (mount r) path) routes.

(** What a proxied request ends in: one upstream call, then the backend's
    reply, the answer of [onError], or no response. *)
Definition proxied (o : Options) (w : World) (req : Request) : Reply :=
  match backend w (target o) (method req) (forwarded_path o req) with
  | Replied r =>
      Sent [Dispatch (target o) (method req) (forwarded_path o req) (timeout o)] r
  | Failed e =>
      Sent [Dispatch (target o) (method req) (forwarded_path o req) (timeout o)]
           (onError o e req (now w))
  | Silent =>
      NoReply [Dispatch (target o) (method req) (forwarded_path o req) (timeout o)]
              (timeout o)
  end.

(** The object literal [{ pathRewrite: rules, ...config }]. *)
Definition with_pathRewrite (rules : list (string * string)) (config : Options)
    : Options :=
  {| pathRewrite := rules;
     target := target config;
     changeOrigin := changeOrigin config;
     timeout := timeout config;
     onError := onError config |}.

(** [err.code === c] *)
Definition code_is (err : Js.Error) (c : string) : bool :=
  match code err with
  | Some c' => String.eqb c' c
  | None => false
  end.

(** [cors(...)]: a preflight request is ended with 204 and an empty body;
    any other request gets its headers and goes on. *)
Definition cors : Handler :=
  fun _ req =>
    if String.eqb (uppercase (method req)) "OPTIONS" then
      Done [] {| status := 204; body := JUndefined |}
    else Next.

(** [express.json()]: goes on, or fails with the parser's error. *)
Definition express_json : Handler :=
  fun _ req =>
    match body_fault req with
    | Some e => Fail e
    | None => Next
    end.

(** The two fallbacks that both servers register last. *)
Definition notFound : Handler :=
  fun _ _ => Done [] {| status := 404;
                        body := JObject [("error", JString "Route not found")] |}.

Definition globalError : ErrorHandler :=
  fun _ _ _ => {| status := 500;
                  body := JObject [("error", JString "Internal server error")] |}.

(* ================================================================== *)
(** ** The gateway of [src/unnamed/part_001] *)

Module Gateway.

(** The environment variables the program reads. *)
Record Env := {
  PORT : option string;
  FRONTEND_URL : option string;
  CLASSIFIER_URL : option string;
  PARSER_CLEANER_URL : option string;
  RESPONSE_GENERATOR_URL : option string;
  COLLECTOR_URL : option string
}.

(** The logging middleware: prints and calls [next()]. *)
Definition logIncoming : Handler := fun _ _ => Next.

Definition onError (serviceName target : string)
    (err : Js.Error) (req : Request) (now : string) : Response :=
  if code_is err "ECONNREFUSED" then
    {| status := 503;
       body := JObject
         [("error", JString "Service Unavailable");
          ("message", JString (serviceName ++ " service is not responding"));
          ("service", JString serviceName);
          ("target", JString target);
          ("timestamp", JString now)] |}
  else if code_is err "ETIMEDOUT" then
    {| status := 504;
       body := JObject
         [("error", JString "Gateway Timeout");
          ("message", JString (serviceName ++ " service took too long to respond"));
          ("service", JString serviceName)] |}
  else
    {| status := 500;
       body := JObject
         [("error", JString "Proxy Error");
          ("message", JString (message err));
          ("code", of_option (code err));
          ("service", JString serviceName)] |}.

(** [createProxyConfig]; the object has no [pathRewrite] of its own. *)
Definition createProxyConfig (serviceName target : string) : Options :=
  {| pathRewrite := [];
     target := target;
     changeOrigin := true;
     timeout := Some 30000%Z;
     Hpm.onError := onError serviceName target |}.

Record ServiceUrls := {
  classifier : string;
  parsercleaner : string;
  responsegenerator : string;
  collector : string
}.

Definition SERVICE_URLS (env : Env) : ServiceUrls :=
  {| classifier :=
       or_default (CLASSIFIER_URL env) "http://classifier.railway.internal:8000";
     parsercleaner :=
       or_default (PARSER_CLEANER_URL env) "http://parser_cleaner.railway.internal:8000";
     responsegenerator :=
       or_default (RESPONSE_GENERATOR_URL env)
         "http://response_generator.railway.internal:8000";
     collector :=
       or_default (COLLECTOR_URL env) "http://lemlist-collector.railway.internal:8000" |}.

(** One [app.use(prefix, createProxyMiddleware({...}))] of the program: the
    mount path, the replacement of its [pathRewrite] rule [^prefix], and the
    two arguments of [createProxyConfig]. *)
Record Registration := {
  prefix : string;
  replacement : string;
  serviceName : string;
  serviceTarget : string
}.

Definition register (g : Registration) : Route :=
  {| mount := prefix g;
     options := with_pathRewrite [("^" ++ prefix g, replacement g)]
                  (createProxyConfig (serviceName g) (serviceTarget g)) |}.

(** The five specific registrations, in source order. *)
Definition specific (env : Env) : list Registration :=
  [ {| prefix := "/api/classify"; replacement := "";
       serviceName := "classifier";
       serviceTarget := classifier (SERVICE_URLS env) |};
    {| prefix := "/api/clean"; replacement := "";
       serviceName := "parser-cleaner";
       serviceTarget := parsercleaner (SERVICE_URLS env) |};
    {| prefix := "/api/generate"; replacement := "";
       serviceName := "response-generator";
       serviceTarget := responsegenerator (SERVICE_URLS env) |};
    {| prefix := "/api/collect"; replacement := "/collect";
       serviceName := "collector-collect";
       serviceTarget := collector (SERVICE_URLS env) |};
    {| prefix := "/api/companies"; replacement := "/companies";
       serviceName := "collector-companies";
       serviceTarget := collector (SERVICE_URLS env) |} ].

(** The catch-all registration, after them. *)
Definition catchall (env : Env) : Registration :=
  {| prefix := "/api"; replacement := "";
     serviceName := "collector-catchall";
     serviceTarget := collector (SERVICE_URLS env) |}.

Definition registrations (env : Env) : list Registration :=
  (specific env ++ [catchall env])%list.

Definition routes (env : Env) : list Route :=
  map register (registrations env).

Definition health_services : Value :=
  JObject
    [("classifier", JString "http://classifier.railway.internal");
     ("parsercleaner", JString "http://parser_cleaner.railway.internal");
     ("responsegenerator", JString "http://response_generator.railway.internal");
     ("collector", JString "lemlist-collector.railway.internal")].

Definition health : Handler :=
  fun w _ =>
    Done [] {| status := 200;
               body := JObject
                 [("status", JString "OK");
                  ("timestamp", JString (now w));
                  ("services", health_services)] |}.

Definition servicesWithPort : list (string * string) :=
  [("collector-8000", "http://lemlist-collector.railway.internal:8000");
   ("collector-3000", "http://lemlist-collector.railway.internal:3000");
   ("collector-no-port", "http://lemlist-collector.railway.internal")].

(** One turn of the [for] loop of [/diagnostic]: the [fetch] it issues and
    the [testResults] object it stores under [name]. *)
Definition probe (w : World) (entry : string * string)
    (acc : list Event * list (string * Value)) : list Event * list (string * Value) :=
  let '(name, u) := entry in
  let '(trace, results) := acc in
  let testResults :=
    match fetch w (u ++ "/status") with
    | FetchOk statusCode =>
        [("status", JObject [("status", JString "reachable");
                             ("statusCode", JNumber statusCode);
                             ("url", JString (u ++ "/status"))])]
    | FetchErr error =>
        [("status", JObject [("status", JString "unreachable");
                             ("error", JString (message error));
                             ("code", of_option (code error));
                             ("url", JString (u ++ "/status"))])]
    end in
  ((trace ++ [Fetch (u ++ "/status") "GET" 5000%Z])%list,
   Js.set name (JObject testResults) results).

Definition diagnostic : Handler :=
  fun w _ =>
    let '(trace, results) :=
      fold_left (fun acc entry => probe w entry acc) servicesWithPort ([], []) in
    Done trace
      {| status := 200;
         body := JObject
           [("timestamp", JString (now w));
            ("serviceTests", JObject results);
            ("note", JString "Testing different ports for Railway internal networking")] |}.

(** The layers registered after the two parsers, in registration order. *)
Definition pipeline (env : Env) : list Layer :=
  (Use "/" logIncoming
   :: map proxy_layer (routes env)
   ++ [ Get "/health" health;
        Get "/diagnostic" diagnostic;
        Use "*" notFound;
        UseError globalError ])%list.

(** The whole stack. *)
Definition app (env : Env) : list Layer :=
  Use "/" cors :: Use "/" express_json :: pipeline env.

(** Any request. *)
Definition serve (env : Env) (w : World) (req : Request) : Reply :=
  run (app env) None w req.

(** A request that [cors] and [express.json] let through. *)
Definition handle (env : Env) (w : World) (req : Request) : Reply :=
  run (pipeline env) None w req.

(** A request for which an earlier middleware called [next(err)]. *)
Definition handle_fault (env : Env) (e : Js.Error) (w : World) (req : Request)
    : Reply :=
  run (pipeline env) (Some e) w req.

End Gateway.

(* ================================================================== *)
(** ** The server of [src/server.js] *)

Module Server.

Definition onError (err : Js.Error) (req : Request) (now : string) : Response :=
  {| status := 500;
     body := JObject [("error", JString "Proxy error occurred")] |}.

(** [proxyOptions] has neither [target] nor [pathRewrite]; each registration
    adds its own. *)
Definition proxyOptions (target : string) (rules : list (string * string))
    : Options :=
  {| pathRewrite := rules;
     target := target;
     changeOrigin := true;
     timeout := None;
     Hpm.onError := onError |}.

Definition routes : list Route :=
  [ {| mount := "/api/classify";
       options := proxyOptions "http://classifier.railway.internal"
                    [("^/api/classify", "")] |};
    {| mount := "/api/clean";
       options := proxyOptions "http://parser_cleaner.railway.internal"
                    [("^/api/clean", "")] |};
    {| mount := "/api/generate";
       options := proxyOptions "http://response_generator.railway.internal"
                    [("^/api/generate", "")] |};
    {| mount := "/api";
       options := proxyOptions "http://lemlist-collector.railway.internal"
                    [("^/api", "")] |} ].

Definition health : Handler :=
  fun w _ =>
    Done [] {| status := 200;
               body := JObject
                 [("status", JString "OK");
                  ("timestamp", JString (now w));
                  ("services", JObject
                     [("classifier", JString "http://classifier.railway.internal");
                      ("parsercleaner", JString "http://parser_cleaner.railway.internal");
                      ("responsegenerator",
                       JString "http://response_generator.railway.internal");
                      ("collector", JString "http://lemlist-collector.railway.internal")])] |}.

(** The layers registered after the two parsers. *)
Definition pipeline : list Layer :=
  (map proxy_layer routes
   ++ [ Get "/health" health;
        Use "*" notFound;
        UseError globalError ])%list.

(** The whole stack. *)
Definition app : list Layer :=
  Use "/" cors :: Use "/" express_json :: pipeline.

Definition serve (w : World) (req : Request) : Reply :=
  run app None w req.

Definition handle (w : World) (req : Request) : Reply :=
  run pipeline None w req.

Definition handle_fault (e : Js.Error) (w : World) (req : Request) : Reply :=
  run pipeline (Some e) w req.

End Server.

(* ================================================================== *)
(** ** Sample environments, worlds and requests *)

Module Sample.

(** No environment variable set: every target is its default. *)
Definition env_default : Gateway.Env :=
  {| Gateway.PORT := None;
     Gateway.FRONTEND_URL := None;
     Gateway.CLASSIFIER_URL := None;
     Gateway.PARSER_CLEANER_URL := None;
     Gateway.RESPONSE_GENERATOR_URL := None;
     Gateway.COLLECTOR_URL := None |}.

(** A deployment that overrides every target. *)
Definition env_staging : Gateway.Env :=
  {| Gateway.PORT := Some "8080";
     Gateway.FRONTEND_URL := Some "https://app.example.org";
     Gateway.CLASSIFIER_URL := Some "http://10.0.0.1:9001";
     Gateway.PARSER_CLEANER_URL := Some "http://10.0.0.2:9002";
     Gateway.RESPONSE_GENERATOR_URL := Some "http://10.0.0.3:9003";
     Gateway.COLLECTOR_URL := Some "http://10.0.0.4:9004" |}.

Definition refused : Js.Error :=
  {| code := Some "ECONNREFUSED";
     message := "connect ECONNREFUSED 10.0.0.4:9004";
     stack := "Error: connect ECONNREFUSED 10.0.0.4:9004 at TCPConnectWrap.afterConnect" |}.

Definition timed_out : Js.Error :=
  {| code := Some "ETIMEDOUT";
     message := "connect ETIMEDOUT 10.0.0.4:9004";
     stack := "Error: connect ETIMEDOUT 10.0.0.4:9004 at TCPConnectWrap.afterConnect" |}.

Definition hang_up : Js.Error :=
  {| code := Some "ECONNRESET";
     message := "socket hang up";
     stack := "Error: socket hang up at connResetException" |}.

(** A world whose backends all fail with [e] and whose probes all fail too. *)
Definition failing (e : Js.Error) : World :=
  {| now := "2024-05-01T10:00:00.000Z";
     backend := fun _ _ _ => Failed e;
     fetch := fun _ => FetchErr e |}.

(** A world whose backends echo the forwarded path with status 200. *)
Definition echoing : World :=
  {| now := "2024-05-02T08:30:00.000Z";
     backend := fun _ _ path =>
       Replied {| status := 200; body := JObject [("path", JString path)] |};
     fetch := fun _ => FetchOk 200 |}.

(** A world whose backends accept the request and never reply. *)
Definition silent : World :=
  {| now := "2024-05-03T09:00:00.000Z";
     backend := fun _ _ _ => Silent;
     fetch := fun _ => FetchOk 200 |}.


(** The error of [express.json] for a body that is not JSON. *)
Definition bad_json : Js.Error :=
  {| code := None;
     message := "Unexpected token } in JSON at position 1";
     stack := "SyntaxError: Unexpected token } in JSON at position 1" |}.

Definition GET (u : string) : Request :=
  {| method := "GET"; url := u; body_fault := None |}.
Definition POST (u : string) : Request :=
  {| method := "POST"; url := u; body_fault := None |}.
Definition OPTIONS (u : string) : Request :=
  {| method := "OPTIONS"; url := u; body_fault := None |}.
(** A POST whose body [express.json] rejects. *)
Definition POST_bad (u : string) : Request :=
  {| method := "POST"; url := u; body_fault := Some bad_json |}.

End Sample.

(* ================================================================== *)
(** ** Observations on traces and error bodies *)


(** The values of the [error] field that the two servers write. *)
Definition error_kinds : list string :=
  [ "Service Unavailable"; "Gateway Timeout"; "Proxy Error";
    "Proxy error occurred"; "Route not found"; "Internal server error" ].

(** A body that is an object whose [error] field is one of them. *)
Definition stable_error (v : Value) : bool :=
  match Js.get "error" v with
  | Some (JString kind) => existsb (String.eqb kind) error_kinds
  | _ => false
  end.

(** A request that [cors] and [express.json] let through. *)
Definition passes (req : Request) : Prop :=
  uppercase (method req) <> "OPTIONS" /\ body_fault req = None.

(** The words of the route table: [path] continues [prefix], letter case
    aside, and what follows is the end of the path or starts with a
    slash. *)
Definition continues_at_boundary (prefix path : string) : Prop :=
  exists head rest,
    path = head ++ rest
    /\ lowercase head = lowercase prefix
    /\ (rest = "" \/ exists tail, rest = String "/" tail).

(* ================================================================== *)
(** ** Strings and URLs *)

Section Strings.

Lemma append_assoc (a b c : string) : (a ++ b) ++ c = a ++ (b ++ c).
Proof.
  induction a as [|x a IH]; simpl; [reflexivity|].
  now rewrite IH.
Qed.

Lemma lower_eqb_refl (c : ascii) : Ascii.eqb (lower c) (lower c) = true.
Proof. apply Ascii.eqb_refl. Qed.

(** A path that continues [p] is stripped to its continuation, whatever
    the letter case of [p]. *)
Lemma strip_ci_app (p rest : string) : strip_ci p (p ++ rest) = Some rest.
Proof.
  induction p as [|a p IH]; simpl; [reflexivity|].
  now rewrite lower_eqb_refl.
Qed.

Lemma strip_app (p rest : string) : strip p (p ++ rest) = Some rest.
Proof.
  induction p as [|a p IH]; simpl; [reflexivity|].
  now rewrite Ascii.eqb_refl.
Qed.

(** [strip] is exact: it succeeds only on a literal prefix. *)
Lemma strip_inv (p s rest : string) : strip p s = Some rest -> s = p ++ rest.
Proof.
  revert s; induction p as [|a p IH]; simpl; intros s H.
  - now inversion H.
  - destruct s as [|b s]; [discriminate|].
    destruct (Ascii.eqb_spec a b) as [->|]; [|discriminate].
    now rewrite (IH _ H).
Qed.

(** A URL is its pathname followed by its query part. *)
Lemma url_split (u : string) : u = pathname u ++ search u.
Proof.
  induction u as [|c u IH]; simpl; [reflexivity|].
  destruct (Ascii.eqb c "?"); simpl; [reflexivity|].
  now rewrite <- IH.
Qed.

(** An anchored rule [^p] rewrites a URL that starts with [p]. *)
Lemma rewrite_anchored (p v rest : string) (more : list (string * string)) :
  rewritePath (("^" ++ p, v) :: more) (p ++ rest) = v ++ rest.
Proof.
  simpl. now rewrite strip_app.
Qed.

End Strings.

(* ================================================================== *)
(** ** Base URLs *)

Lemma host_char_not_stop (c : ascii) :
  host_char c = true ->
  Ascii.eqb c "/" || Ascii.eqb c "?" || Ascii.eqb c "#" = false.
Proof.
  destruct c as [[] [] [] [] [] [] [] []]; vm_compute; intros H;
    first [reflexivity | discriminate H].
Qed.

Lemma host_char_not_colon (c : ascii) :
  host_char c = true -> Ascii.eqb c ":" = false.
Proof.
  destruct c as [[] [] [] [] [] [] [] []]; vm_compute; intros H;
    first [reflexivity | discriminate H].
Qed.

Lemma digit_not_stop (c : ascii) :
  is_digit c = true ->
  Ascii.eqb c "/" || Ascii.eqb c "?" || Ascii.eqb c "#" = false.
Proof.
  destruct c as [[] [] [] [] [] [] [] []]; vm_compute; intros H;
    first [reflexivity | discriminate H].
Qed.

Lemma digits_no_path (p : string) :
  forallb is_digit (list_ascii_of_string p) = true -> skip_authority p = "".
Proof.
  induction p as [|c p IH]; [reflexivity|].
  cbn [list_ascii_of_string forallb skip_authority]. intros H.
  apply andb_true_iff in H. destruct H as [Hc Hp].
  rewrite (digit_not_stop c Hc). now apply IH.
Qed.

(** A host name with an optional port has no path after it. *)
Lemma authority_no_path (a : string) :
  authority_ok a = true -> skip_authority a = "".
Proof.
  unfold authority_ok. intros H.
  apply andb_true_iff in H. destruct H as [H Hport].
  apply andb_true_iff in H. destruct H as [H _].
  apply andb_true_iff in H. destruct H as [H _].
  apply andb_true_iff in H. destruct H as [_ Hhost].
  revert Hhost Hport. induction a as [|c a IH]; [reflexivity|].
  cbn [host_of port_of skip_authority].
  destruct (Ascii.eqb_spec c ":") as [->|Hc].
  - intros _ Hport. cbn. now apply digits_no_path.
  - cbn [list_ascii_of_string forallb]. intros Hhost Hport.
    apply andb_true_iff in Hhost. destruct Hhost as [Hh Hrest].
    rewrite (host_char_not_stop c Hh). now apply IH.
Qed.

(** The path of a base URL is the root. *)
Lemma base_url_root (t : string) : base_url t = true -> target_path t = "/".
Proof.
  unfold base_url. intros H.
  destruct (strip "http://" t) as [a|] eqn:E.
  - apply strip_inv in E. subst t. unfold target_path. cbn [append after_scheme strip].
    cbn. now rewrite (authority_no_path a H).
  - destruct (strip "https://" t) as [a|] eqn:E'; [|discriminate].
    apply strip_inv in E'. subst t. unfold target_path. cbn.
    now rewrite (authority_no_path a H).
Qed.

(* ================================================================== *)
(** ** The router on a list of proxy registrations *)

Section Router.

Variables (w : World) (req : Request).

(** Proxy layers on literal mount paths are tried in order; the first whose
    mount matches ends the request, and the remaining layers are reached
    only when none does. *)
Lemma run_proxy_layers (routes : list Route) (tail : list Layer) :
  (forall r, In r routes ->
     String.eqb (mount r) "/" = false /\ String.eqb (mount r) "*" = false) ->
  run (map proxy_layer routes ++ tail) None w req =
  match match_route routes (pathname (url req)) with
  | Some r => proxied (options r) w req
  | None => run tail None w req
  end.
Proof.
  induction routes as [|r routes IH]; intros Hlit; [reflexivity|].
  cbn [map app run proxy_layer]. unfold use_match.
  destruct (Hlit r (or_introl eq_refl)) as [H1 H2]. rewrite H1, H2.
  unfold match_route. cbn [find].
  destruct (mount_match (mount r) (pathname (url req))).
  - unfold createProxyMiddleware, proxied.
    destruct (backend w (target (options r)) (method req)
                (forwarded_path (options r) req)); reflexivity.
  - apply IH. intros r' Hin. apply Hlit. now right.
Qed.

(** [find] returns the first match: everything before it fails the test. *)
Lemma match_route_first (routes : list Route) (path : string) (r : Route) :
  match_route routes path = Some r <->
  exists before after,
    routes = (before ++ r :: after)%list /\
    mount_match (mount r) path = true /\
    forall r', In r' before -> mount_match (mount r') path = false.
Proof.
  unfold match_route. split.
  - induction routes as [|x routes IH]; simpl; [discriminate|].
    destruct (mount_match (mount x) path) eqn:E; intros H.
    + inversion H; subst. exists [], routes. repeat split; auto.
      intros r' [].
    + destruct (IH H) as (before & after & -> & Hm & Hb).
      exists (x :: before), after. repeat split; auto.
      intros r' [<-|Hin]; auto.
  - intros (before & after & -> & Hm & Hb).
    induction before as [|x before IH]; simpl.
    + now rewrite Hm.
    + rewrite (Hb x (or_introl eq_refl)). apply IH.
      intros r' Hin. apply Hb. now right.
Qed.

Lemma gateway_literal_mounts (env : Gateway.Env) (r : Route) :
  In r (Gateway.routes env) ->
  String.eqb (mount r) "/" = false /\ String.eqb (mount r) "*" = false.
Proof.
  intros Hin. simpl in Hin.
  repeat destruct Hin as [<-|Hin]; try contradiction; split; reflexivity.
Qed.

Lemma server_literal_mounts (r : Route) :
  In r Server.routes ->
  String.eqb (mount r) "/" = false /\ String.eqb (mount r) "*" = false.
Proof.
  intros Hin. simpl in Hin.
  repeat destruct Hin as [<-|Hin]; try contradiction; split; reflexivity.
Qed.

(** The gateway after the parsers: the logger passes, then the proxy
    registrations, then the local routes and the fallbacks. *)
Lemma gateway_handle (env : Gateway.Env) :
  Gateway.handle env w req =
  match match_route (Gateway.routes env) (pathname (url req)) with
  | Some r => proxied (options r) w req
  | None =>
      run [ Get "/health" Gateway.health;
            Get "/diagnostic" Gateway.diagnostic;
            Use "*" notFound;
            UseError globalError ] None w req
  end.
Proof.
  unfold Gateway.handle, Gateway.pipeline.
  change (run (Use "/" Gateway.logIncoming :: ?l) None w req)
    with (run l None w req).
  apply run_proxy_layers. apply gateway_literal_mounts.
Qed.

Lemma server_handle :
  Server.handle w req =
  match match_route Server.routes (pathname (url req)) with
  | Some r => proxied (options r) w req
  | None =>
      run [ Get "/health" Server.health;
            Use "*" notFound;
            UseError globalError ] None w req
  end.
Proof.
  unfold Server.handle, Server.pipeline. apply run_proxy_layers.
  apply server_literal_mounts.
Qed.

(** A pending error skips every layer up to the error handler. *)
Lemma gateway_fault (env : Gateway.Env) (e : Js.Error) :
  Gateway.handle_fault env e w req
  = Sent [] {| status := 500;
               body := JObject [("error", JString "Internal server error")] |}.
Proof. reflexivity. Qed.


(** The whole stack: [cors] answers a preflight, [express.json] fails a
    body it rejects, and the other requests go on. *)
Lemma gateway_serve (env : Gateway.Env) :
  Gateway.serve env w req =
  if String.eqb (uppercase (method req)) "OPTIONS" then
    Sent [] {| status := 204; body := JUndefined |}
  else match body_fault req with
       | Some e => Gateway.handle_fault env e w req
       | None => Gateway.handle env w req
       end.
Proof.
  unfold Gateway.serve, Gateway.app, Gateway.handle, Gateway.handle_fault.
  cbn [run]. change (use_match "/" (pathname (url req))) with Hit. cbv iota.
  unfold cors at 1.
  destruct (String.eqb (uppercase (method req)) "OPTIONS"); [reflexivity|].
  unfold express_json at 1. destruct (body_fault req); reflexivity.
Qed.

Lemma server_serve :
  Server.serve w req =
  if String.eqb (uppercase (method req)) "OPTIONS" then
    Sent [] {| status := 204; body := JUndefined |}
  else match body_fault req with
       | Some e => Server.handle_fault e w req
       | None => Server.handle w req
       end.
Proof.
  unfold Server.serve, Server.app, Server.handle, Server.handle_fault.
  cbn [run]. change (use_match "/" (pathname (url req))) with Hit. cbv iota.
  unfold cors at 1.
  destruct (String.eqb (uppercase (method req)) "OPTIONS"); [reflexivity|].
  unfold express_json at 1. destruct (body_fault req); reflexivity.
Qed.

Lemma gateway_serve_passes (env : Gateway.Env) :
  passes req -> Gateway.serve env w req = Gateway.handle env w req.
Proof.
  intros [Hm Hb]. rewrite gateway_serve.
  apply String.eqb_neq in Hm. now rewrite Hm, Hb.
Qed.

Lemma server_serve_passes :
  passes req -> Server.serve w req = Server.handle w req.
Proof.
  intros [Hm Hb]. rewrite server_serve.
  apply String.eqb_neq in Hm. now rewrite Hm, Hb.
Qed.

End Router.

(* ================================================================== *)
(** ** Routing of the gateway's registrations *)

Section GatewayRouting.

Variable env : Gateway.Env.

(** A path that continues a specific prefix at a segment boundary is
    matched by that registration: no earlier one matches it. *)
Lemma specific_route_matched (g : Gateway.Registration) (rest : string) :
  In g (Gateway.specific env) ->
  boundary rest = true ->
  match_route (Gateway.routes env) (Gateway.prefix g ++ rest)
  = Some (Gateway.register g).
Proof.
  intros Hin Hb. unfold Gateway.specific in Hin. simpl in Hin.
  repeat destruct Hin as [<-|Hin]; try contradiction;
    unfold match_route, mount_match; simpl; rewrite Hb; reflexivity.
Qed.




End GatewayRouting.

(** The outbound calls of a proxied request: the one upstream call. *)
Lemma proxied_trace (o : Options) (w : World) (req : Request) :
  trace_of (proxied o w req)
  = [Dispatch (target o) (method req) (forwarded_path o req) (timeout o)].
Proof.
  unfold proxied.
  destruct (backend w (target o) (method req) (forwarded_path o req)); reflexivity.
Qed.




(** C2.  For a literal prefix, the rule [^prefix] with replacement [""]
    rewrites [prefix ++ suffix] to [suffix], and with replacement ["/x"] to
    ["/x" ++ suffix]; every rule configured by either server is such a rule
    for its own mount path. *)
Theorem C2_rewrite_prefix (prefix suffix : string) :
  plain prefix = true ->
  rewritePath [("^" ++ prefix, "")] (prefix ++ suffix) = suffix
  /\ rewritePath [("^" ++ prefix, "/x")] (prefix ++ suffix) = "/x" ++ suffix
  /\ (forall env r, In r (Gateway.routes env) \/ In r Server.routes ->
        exists replacement,
          pathRewrite (options r) = [("^" ++ mount r, replacement)]
          /\ plain (mount r) = true
          /\ plain replacement = true
          /\ rewritePath (pathRewrite (options r)) (mount r ++ suffix)
             = replacement ++ suffix).
Proof.
  intros _. split; [|split].
  - apply (rewrite_anchored prefix "" suffix []).
  - apply (rewrite_anchored prefix "/x" suffix []).
  - intros env r [Hin|Hin]; simpl in Hin;
      repeat destruct Hin as [<-|Hin]; try contradiction;
      eexists; (split; [reflexivity|]); repeat split;
      apply (rewrite_anchored _ _ suffix []).
Qed.

(** C2, instance: the classifier rule on /api/classify/predict. *)
Lemma C2_witness :
  rewritePath [("^/api/classify", "")] "/api/classify/predict" = "/predict"
  /\ rewritePath [("^/api/classify", "/x")] "/api/classify/predict" = "/x/predict".
Proof.
  destruct (C2_rewrite_prefix "/api/classify" "/predict" eq_refl) as (H1 & H2 & _).
  split; [exact H1 | exact H2].
Defined.

(* ================================================================== *)
(** ** Proxy failures in the gateway *)

Section GatewayFailures.

Variables (env : Gateway.Env) (w : World) (req : Request).

(** A matched route is one of the six registrations. *)
Lemma matched_is_registered (r : Route) :
  match_route (Gateway.routes env) (pathname (url req)) = Some r ->
  exists g, In g (Gateway.registrations env) /\ r = Gateway.register g.
Proof.
  intros H. apply find_some in H. destruct H as [Hin _].
  unfold Gateway.routes in Hin. apply in_map_iff in Hin.
  destruct Hin as (g & <- & Hg). now exists g.
Qed.

(** A failed dispatch is answered by the registration's [onError], after
    the single upstream call. *)
Lemma gateway_failure (g : Gateway.Registration) (e : Js.Error) :
  match_route (Gateway.routes env) (pathname (url req))
    = Some (Gateway.register g) ->
  backend w (Gateway.serviceTarget g) (method req)
    (forwarded_path (options (Gateway.register g)) req) = Failed e ->
  Gateway.handle env w req
  = Sent [Dispatch (Gateway.serviceTarget g) (method req)
            (forwarded_path (options (Gateway.register g)) req) (Some 30000%Z)]
         (Gateway.onError (Gateway.serviceName g) (Gateway.serviceTarget g)
            e req (now w)).
Proof.
  intros Hm Hb. rewrite gateway_handle, Hm. unfold proxied.
  simpl target. now rewrite Hb.
Qed.

(** A silent backend leaves the request without a response until the
    30 s timeout closes the connection. *)
Lemma gateway_silence (g : Gateway.Registration) :
  match_route (Gateway.routes env) (pathname (url req))
    = Some (Gateway.register g) ->
  backend w (Gateway.serviceTarget g) (method req)
    (forwarded_path (options (Gateway.register g)) req) = Silent ->
  Gateway.handle env w req
  = NoReply [Dispatch (Gateway.serviceTarget g) (method req)
               (forwarded_path (options (Gateway.register g)) req) (Some 30000%Z)]
            (Some 30000%Z).
Proof.
  intros Hm Hb. rewrite gateway_handle, Hm. unfold proxied.
  simpl target. now rewrite Hb.
Qed.

End GatewayFailures.

Lemma code_is_eq (e : Js.Error) (c : string) :
  code e = Some c -> code_is e c = true.
Proof. intros H. unfold code_is. rewrite H. apply String.eqb_refl. Qed.

Lemma code_is_true (e : Js.Error) (c : string) :
  code_is e c = true -> code e = Some c.
Proof.
  unfold code_is. destruct (code e) as [c'|]; [|discriminate].
  intros H. apply String.eqb_eq in H. now subst.
Qed.

(** C3.  When the dispatch of a matched request fails with code
    ECONNREFUSED, the gateway answers 503 with the body
    {error: "Service Unavailable", message, service, target, timestamp}:
    the message names the service, target is the registration's resolved
    target and timestamp is the clock's reading. *)
Theorem C3_connection_refused_503
    (env : Gateway.Env) (w : World) (req : Request) (r : Route) (e : Js.Error) :
  match_route (Gateway.routes env) (pathname (url req)) = Some r ->
  backend w (target (options r)) (method req) (forwarded_path (options r) req)
    = Failed e ->
  code e = Some "ECONNREFUSED" ->
  exists g,
    In g (Gateway.registrations env) /\ r = Gateway.register g
    /\ Gateway.handle env w req
       = Sent [Dispatch (target (options r)) (method req)
                 (forwarded_path (options r) req) (Some 30000%Z)]
              {| status := 503;
                 body := JObject
                   [("error", JString "Service Unavailable");
                    ("message",
                     JString (Gateway.serviceName g ++ " service is not responding"));
                    ("service", JString (Gateway.serviceName g));
                    ("target", JString (target (options r)));
                    ("timestamp", JString (now w))] |}.
Proof.
  intros Hm Hb Hc.
  destruct (matched_is_registered env req r Hm) as (g & Hg & ->).
  exists g. split; [exact Hg|]. split; [reflexivity|].
  rewrite (gateway_failure env w req g e Hm Hb).
  unfold Gateway.onError. now rewrite (code_is_eq e _ Hc).
Qed.

(** C3, instance: the collector refuses a POST to /api/leads, a path of the
    catch-all registration. *)
Lemma C3_witness :
  exists g,
    In g (Gateway.registrations Sample.env_staging)
    /\ Gateway.register (Gateway.catchall Sample.env_staging) = Gateway.register g
    /\ Gateway.handle Sample.env_staging (Sample.failing Sample.refused)
         (Sample.POST "/api/leads")
       = Sent [Dispatch "http://10.0.0.4:9004" "POST" "/leads" (Some 30000%Z)]
           {| status := 503;
              body := JObject
                [("error", JString "Service Unavailable");
                 ("message",
                  JString (Gateway.serviceName g ++ " service is not responding"));
                 ("service", JString (Gateway.serviceName g));
                 ("target", JString "http://10.0.0.4:9004");
                 ("timestamp", JString "2024-05-01T10:00:00.000Z")] |}.
Proof.
  exact (C3_connection_refused_503 Sample.env_staging
           (Sample.failing Sample.refused) (Sample.POST "/api/leads")
           (Gateway.register (Gateway.catchall Sample.env_staging))
           Sample.refused eq_refl eq_refl eq_refl).
Defined.

(* ================================================================== *)
(** ** Requests that no proxy registration matches *)

Section GatewayLocal.

Variables (w : World) (req : Request).

(** The three probes of [/diagnostic], whatever [fetch] returns. *)
Lemma diagnostic_trace :
  exists res,
    Gateway.diagnostic w req
    = Done [ Fetch "http://lemlist-collector.railway.internal:8000/status" "GET" 5000%Z;
             Fetch "http://lemlist-collector.railway.internal:3000/status" "GET" 5000%Z;
             Fetch "http://lemlist-collector.railway.internal/status" "GET" 5000%Z ]
           res.
Proof.
  unfold Gateway.diagnostic. simpl. eexists. reflexivity.
Qed.

(** The local routes and the fallbacks of the gateway always answer, and
    make no upstream call. *)
Lemma gateway_local_sent :
  exists trace res,
    run [ Get "/health" Gateway.health;
          Get "/diagnostic" Gateway.diagnostic;
          Use "*" notFound;
          UseError globalError ] None w req = Sent trace res
    /\ forall t m p to, ~ In (Dispatch t m p to) trace.
Proof.
  cbn [run].
  destruct (route_match "/health" (pathname (url req)) && get_method (method req)).
  { do 2 eexists. split; [reflexivity|]. intros t m p to []. }
  destruct (route_match "/diagnostic" (pathname (url req)) && get_method (method req)).
  { destruct diagnostic_trace as [r ->]. do 2 eexists. split; [reflexivity|].
    intros t m p to Hin. simpl in Hin.
    repeat destruct Hin as [Hin|Hin]; try discriminate; contradiction. }
  unfold use_match. cbn [String.eqb Ascii.eqb Bool.eqb].
  destruct (decodable (pathname (url req))).
  - do 2 eexists. split; [reflexivity|]. intros t m p to [].
  - do 2 eexists. split; [reflexivity|]. intros t m p to [].
Qed.

Lemma gateway_local_no_dispatch (trace : list Event) (res : Response) :
  run [ Get "/health" Gateway.health;
        Get "/diagnostic" Gateway.diagnostic;
        Use "*" notFound;
        UseError globalError ] None w req = Sent trace res ->
  forall t m p to, ~ In (Dispatch t m p to) trace.
Proof.
  destruct gateway_local_sent as (trace' & res' & -> & H).
  intros E. inversion E; subst. exact H.
Qed.

(** Without a [GET] route for the request, the fallback answers when the
    path decodes. *)
Lemma gateway_local_not_found :
  decodable (pathname (url req)) = true ->
  route_match "/health" (pathname (url req)) && get_method (method req) = false ->
  route_match "/diagnostic" (pathname (url req)) && get_method (method req) = false ->
  run [ Get "/health" Gateway.health;
        Get "/diagnostic" Gateway.diagnostic;
        Use "*" notFound;
        UseError globalError ] None w req
  = Sent [] {| status := 404;
               body := JObject [("error", JString "Route not found")] |}.
Proof.
  intros Hd H1 H2. cbn [run]. rewrite H1, H2.
  unfold use_match. cbn [String.eqb Ascii.eqb Bool.eqb]. rewrite Hd. reflexivity.
Qed.


Lemma server_local_not_found :
  decodable (pathname (url req)) = true ->
  route_match "/health" (pathname (url req)) && get_method (method req) = false ->
  run [ Get "/health" Server.health;
        Use "*" notFound;
        UseError globalError ] None w req
  = Sent [] {| status := 404;
               body := JObject [("error", JString "Route not found")] |}.
Proof.
  intros Hd H1. cbn [run]. rewrite H1.
  unfold use_match. cbn [String.eqb Ascii.eqb Bool.eqb]. rewrite Hd. reflexivity.
Qed.

End GatewayLocal.

(* ================================================================== *)
(** ** How a request of the gateway ends *)

Section GatewayEnds.

Variables (env : Gateway.Env) (w : World) (req : Request).

(** Every request gets a response, or is left without one by a silent
    backend, after that backend's single call and under the 30 s limit;
    upstream calls occur in no other way. *)
Lemma gateway_serve_cases :
  (exists trace res,
      Gateway.serve env w req = Sent trace res
      /\ ((forall t m p to, ~ In (Dispatch t m p to) trace)
          \/ exists g, trace = [Dispatch (Gateway.serviceTarget g) (method req)
                                  (forwarded_path (options (Gateway.register g)) req)
                                  (Some 30000%Z)]))
  \/ (exists g,
        Gateway.serve env w req
        = NoReply [Dispatch (Gateway.serviceTarget g) (method req)
                     (forwarded_path (options (Gateway.register g)) req)
                     (Some 30000%Z)] (Some 30000%Z)).
Proof.
  rewrite gateway_serve.
  destruct (String.eqb (uppercase (method req)) "OPTIONS").
  { left. do 2 eexists. split; [reflexivity|]. left. intros t m p to []. }
  destruct (body_fault req) as [e|].
  { left. rewrite gateway_fault. do 2 eexists. split; [reflexivity|].
    left. intros t m p to []. }
  rewrite gateway_handle.
  destruct (match_route (Gateway.routes env) (pathname (url req))) as [r|] eqn:Hm.
  - destruct (matched_is_registered env req r Hm) as (g & _ & ->).
    unfold proxied.
    destruct (backend w (target (options (Gateway.register g))) (method req)
                (forwarded_path (options (Gateway.register g)) req)).
    + left. do 2 eexists. split; [reflexivity|]. right. now exists g.
    + left. do 2 eexists. split; [reflexivity|]. right. now exists g.
    + right. now exists g.
  - left. destruct (gateway_local_sent w req) as (trace & res & -> & H).
    do 2 eexists. split; [reflexivity|]. now left.
Qed.

End GatewayEnds.

(** C4.  Every request of the gateway ends within the one timeout of
    30000 ms that every upstream call carries: it gets a response, or,
    when the backend stays silent, the connection is closed after 30000 ms
    without one.  When the dispatch of a matched request fails with code
    ETIMEDOUT the gateway answers 504 with the body
    {error: "Gateway Timeout", message, service}, which has no target
    field. *)
Theorem C4_timeout_504
    (env : Gateway.Env) (w : World) (req : Request) :
  ((exists trace res, Gateway.serve env w req = Sent trace res)
   \/ (exists trace, Gateway.serve env w req = NoReply trace (Some 30000%Z)))
  /\ (forall t m p to,
        In (Dispatch t m p to) (trace_of (Gateway.serve env w req)) ->
        to = Some 30000%Z)
  /\ (forall r,
        passes req ->
        match_route (Gateway.routes env) (pathname (url req)) = Some r ->
        backend w (target (options r)) (method req) (forwarded_path (options r) req)
          = Silent ->
        Gateway.serve env w req
        = NoReply [Dispatch (target (options r)) (method req)
                     (forwarded_path (options r) req) (Some 30000%Z)]
                  (Some 30000%Z))
  /\ (forall r e,
        passes req ->
        match_route (Gateway.routes env) (pathname (url req)) = Some r ->
        backend w (target (options r)) (method req) (forwarded_path (options r) req)
          = Failed e ->
        code e = Some "ETIMEDOUT" ->
        exists g res,
          In g (Gateway.registrations env) /\ r = Gateway.register g
          /\ Gateway.serve env w req
             = Sent [Dispatch (target (options r)) (method req)
                       (forwarded_path (options r) req) (Some 30000%Z)] res
          /\ res = {| status := 504;
                      body := JObject
                        [("error", JString "Gateway Timeout");
                         ("message",
                          JString (Gateway.serviceName g
                                   ++ " service took too long to respond"));
                         ("service", JString (Gateway.serviceName g))] |}
          /\ Js.get "target" (body res) = None).
Proof.
  split; [|split; [|split]].
  - destruct (gateway_serve_cases env w req)
      as [(trace & res & H & _)|(g & H)]; rewrite H.
    + left. now exists trace, res.
    + right. eexists. reflexivity.
  - intros t m p to.
    destruct (gateway_serve_cases env w req)
      as [(trace & res & H & [Hno|(g & ->)])|(g & H)]; rewrite H; cbn [trace_of].
    + intros Hin. exfalso. exact (Hno t m p to Hin).
    + intros [Hin|[]]. now inversion Hin.
    + intros [Hin|[]]. now inversion Hin.
  - intros r Hpass Hm Hb.
    destruct (matched_is_registered env req r Hm) as (g & _ & ->).
    rewrite (gateway_serve_passes w req env Hpass).
    exact (gateway_silence env w req g Hm Hb).
  - intros r e Hpass Hm Hb Hc.
    destruct (matched_is_registered env req r Hm) as (g & Hg & ->).
    exists g. eexists. split; [exact Hg|]. split; [reflexivity|].
    split; [|split; [reflexivity|reflexivity]].
    rewrite (gateway_serve_passes w req env Hpass).
    rewrite (gateway_failure env w req g e Hm Hb).
    unfold Gateway.onError.
    assert (Hr : code_is e "ECONNREFUSED" = false)
      by (unfold code_is; now rewrite Hc).
    now rewrite Hr, (code_is_eq e _ Hc).
Qed.

(** C4, instance: the classifier accepts GET /api/classify/predict and
    never replies. *)
Lemma C4_witness :
  Gateway.serve Sample.env_default Sample.silent (Sample.GET "/api/classify/predict")
  = NoReply [Dispatch "http://classifier.railway.internal:8000" "GET" "/predict"
               (Some 30000%Z)] (Some 30000%Z).
Proof.
  destruct (C4_timeout_504 Sample.env_default Sample.silent
              (Sample.GET "/api/classify/predict")) as (_ & _ & H & _).
  refine (H (Gateway.register
               {| Gateway.prefix := "/api/classify"; Gateway.replacement := "";
                  Gateway.serviceName := "classifier";
                  Gateway.serviceTarget := "http://classifier.railway.internal:8000" |})
            _ eq_refl eq_refl).
  split; [discriminate | reflexivity].
Defined.

(* ================================================================== *)
(** ** One upstream call per request *)







(* ================================================================== *)
(** ** Error bodies *)

Lemma gateway_onError_stable (name dest : string) (e : Js.Error) (req : Request)
    (time : string) :
  stable_error (body (Gateway.onError name dest e req time)) = true.
Proof.
  unfold Gateway.onError.
  destruct (code_is e "ECONNREFUSED"); [reflexivity|].
  destruct (code_is e "ETIMEDOUT"); reflexivity.
Qed.

(** C6 (as amended).  Every failure is answered with a JSON object whose
    error field is one of six fixed strings: the 404 of a routing miss, the
    500 of a gateway fault, each outcome of the gateway's [onError] and the
    500 of server.js.  No body depends on the stack trace, and the 503 and
    504 bodies carry no text of the transport error.  The 500 "Proxy Error"
    body does: its message field is the transport error's message and its
    code field the error's code. *)
Theorem C6_error_bodies
    (name dest : string) (e : Js.Error) (req : Request) (time : string)
    (w : World) :
  stable_error (body (Gateway.onError name dest e req time)) = true
  /\ Server.onError e req time
     = {| status := 500;
          body := JObject [("error", JString "Proxy error occurred")] |}
  /\ notFound w req
     = Done [] {| status := 404;
                  body := JObject [("error", JString "Route not found")] |}
  /\ (forall env,
        Gateway.handle_fault env e w req
        = Sent [] {| status := 500;
                     body := JObject [("error", JString "Internal server error")] |})
  /\ Server.handle_fault e w req
     = Sent [] {| status := 500;
                  body := JObject [("error", JString "Internal server error")] |}
  /\ (forall env r e0,
        match_route (Gateway.routes env) (pathname (url req)) = Some r ->
        backend w (target (options r)) (method req) (forwarded_path (options r) req)
          = Failed e0 ->
        exists trace res,
          Gateway.handle env w req = Sent trace res
          /\ stable_error (body res) = true)
  /\ (forall e',
        code e' = code e -> message e' = message e ->
        Gateway.onError name dest e' req time = Gateway.onError name dest e req time)
  /\ (code_is e "ECONNREFUSED" || code_is e "ETIMEDOUT" = true ->
      forall e', code e' = code e ->
        Gateway.onError name dest e' req time = Gateway.onError name dest e req time)
  /\ (code_is e "ECONNREFUSED" || code_is e "ETIMEDOUT" = false ->
      Gateway.onError name dest e req time
      = {| status := 500;
           body := JObject
             [("error", JString "Proxy Error");
              ("message", JString (message e));
              ("code", of_option (code e));
              ("service", JString name)] |}).
Proof.
  split; [apply gateway_onError_stable|].
  split; [reflexivity|]. split; [reflexivity|].
  split; [intros env; reflexivity|]. split; [reflexivity|].
  split; [|split; [|split]].
  - intros env r e0 Hm Hb.
    destruct (matched_is_registered env req r Hm) as (g & _ & ->).
    do 2 eexists. split.
    + exact (gateway_failure env w req g e0 Hm Hb).
    + apply gateway_onError_stable.
  - intros e' Hc Hmsg. unfold Gateway.onError, code_is. now rewrite Hc, Hmsg.
  - intros H e' Hc. unfold Gateway.onError, code_is in *. rewrite Hc.
    destruct (code e) as [c|]; [|discriminate].
    destruct (String.eqb c "ECONNREFUSED"); [reflexivity|].
    destruct (String.eqb c "ETIMEDOUT"); [reflexivity|discriminate].
  - intros H. apply orb_false_iff in H. destruct H as [H1 H2].
    unfold Gateway.onError. now rewrite H1, H2.
Qed.

(** C6, instance: two refused connections with different messages and
    stacks get the same 503 response. *)
Lemma C6_witness :
  Gateway.onError "collector-collect" "http://10.0.0.4:9004"
    {| code := Some "ECONNREFUSED"; message := "connect ECONNREFUSED ::1:9004";
       stack := "" |}
    (Sample.POST "/api/collect/ingest") "2024-05-01T10:00:00.000Z"
  = Gateway.onError "collector-collect" "http://10.0.0.4:9004" Sample.refused
      (Sample.POST "/api/collect/ingest") "2024-05-01T10:00:00.000Z".
Proof.
  destruct (C6_error_bodies "collector-collect" "http://10.0.0.4:9004"
              Sample.refused (Sample.POST "/api/collect/ingest")
              "2024-05-01T10:00:00.000Z" Sample.echoing)
    as (_ & _ & _ & _ & _ & _ & _ & H & _).
  exact (H eq_refl _ eq_refl).
Defined.

(** C6 as stated fails: when the classifier's socket hangs up, the body of
    the 500 response repeats the transport error's own message. *)
Lemma C6_counterexample :
  message Sample.hang_up = "socket hang up"
  /\ Gateway.handle Sample.env_default (Sample.failing Sample.hang_up)
       (Sample.GET "/api/classify/predict")
     = Sent [Dispatch "http://classifier.railway.internal:8000" "GET" "/predict"
               (Some 30000%Z)]
            {| status := 500;
               body := JObject
                 [("error", JString "Proxy Error");
                  ("message", JString "socket hang up");
                  ("code", JString "ECONNRESET");
                  ("service", JString "classifier")] |}.
Proof.
  split; reflexivity.
Qed.

(* ================================================================== *)
(** ** Matching at segment boundaries *)

(** What [strip_ci] removes is the prefix in some letter case. *)
Lemma strip_ci_split (m p rest : string) :
  strip_ci m p = Some rest ->
  exists head, p = head ++ rest /\ lowercase head = lowercase m.
Proof.
  revert p. induction m as [|a m IH]; intros p H.
  - exists "". split; [now inversion H | reflexivity].
  - destruct p as [|c p]; [discriminate|]. cbn [strip_ci] in H.
    destruct (Ascii.eqb_spec (lower a) (lower c)) as [E|]; [|discriminate].
    destruct (IH p H) as (head & -> & Hl).
    exists (String c head). split; [reflexivity|].
    cbn [lowercase]. now rewrite Hl, E.
Qed.

Lemma strip_ci_lowercase (m head rest : string) :
  lowercase head = lowercase m -> strip_ci m (head ++ rest) = Some rest.
Proof.
  revert head. induction m as [|a m IH]; intros head H.
  - destruct head; [reflexivity | discriminate].
  - destruct head as [|c head]; [discriminate|].
    cbn [lowercase] in H. injection H as Hc Hl.
    cbn [append strip_ci]. rewrite Hc, Ascii.eqb_refl. now apply IH.
Qed.

Lemma boundary_spec (rest : string) :
  boundary rest = true <-> rest = "" \/ exists tail, rest = String "/" tail.
Proof.
  destruct rest as [|c rest]; cbn [boundary].
  - split; auto.
  - split.
    + intros H. apply Ascii.eqb_eq in H. subst. right. now exists rest.
    + intros [H|(tail & H)]; [discriminate|]. inversion H. apply Ascii.eqb_refl.
Qed.

(** The layer's regular expression says what the route table's words
    say. *)
Lemma mount_match_continues (m p : string) :
  mount_match m p = true <-> continues_at_boundary m p.
Proof.
  unfold mount_match, continues_at_boundary. split.
  - destruct (strip_ci m p) as [rest|] eqn:E; [|discriminate].
    intros Hb. destruct (strip_ci_split m p rest E) as (head & -> & Hl).
    exists head, rest. split; [reflexivity|]. split; [exact Hl|].
    now apply boundary_spec.
  - intros (head & rest & -> & Hl & Hb).
    rewrite (strip_ci_lowercase m head rest Hl). now apply boundary_spec.
Qed.

(** A mount path matches exactly the paths that continue it, up to letter
    case, at a segment boundary. *)
Lemma mount_match_boundary (m path : string) :
  mount_match m path = true <->
  exists rest, strip_ci m path = Some rest /\ boundary rest = true.
Proof.
  unfold mount_match.
  destruct (strip_ci m path) as [rest|]; split.
  - intros Hb. now exists rest.
  - intros (rest' & Heq & Hb). now inversion Heq; subst.
  - discriminate.
  - intros (rest' & Heq & _). discriminate.
Qed.

(** A path that continues /api without a slash matches no registration of
    the gateway. *)
Lemma api_without_boundary (env : Gateway.Env) (rest : string) :
  boundary rest = false ->
  match_route (Gateway.routes env) ("/api" ++ rest) = None.
Proof.
  destruct rest as [|c rest]; [discriminate|]. simpl boundary. intros Hc.
  destruct c as [[] [] [] [] [] [] [] []]; try discriminate Hc; reflexivity.
Qed.

(** C7 (as amended).  The matcher returns the first registration, in
    registration order, whose prefix the path continues at a segment
    boundary: the path starts with the prefix, letter case aside, and what
    follows is the end of the path or starts with a slash.  A request with
    such a path that is neither a preflight nor rejected by the body
    parser is answered by that registration's proxy, after one upstream
    call, and not by the 404 handler.  A path that only has /api as a
    literal string prefix, without a slash after it, matches no
    registration; such a request is answered by the 404 handler when its
    path decodes. *)
Theorem C7_first_match_at_boundary
    (env : Gateway.Env) (w : World) (req : Request) :
  (forall r,
      match_route (Gateway.routes env) (pathname (url req)) = Some r <->
      exists before g after,
        Gateway.registrations env = (before ++ g :: after)%list
        /\ r = Gateway.register g
        /\ continues_at_boundary (Gateway.prefix g) (pathname (url req))
        /\ forall g', In g' before ->
             ~ continues_at_boundary (Gateway.prefix g') (pathname (url req)))
  /\ (forall r,
        passes req ->
        match_route (Gateway.routes env) (pathname (url req)) = Some r ->
        Gateway.serve env w req = proxied (options r) w req
        /\ trace_of (Gateway.serve env w req)
           = [Dispatch (target (options r)) (method req)
                (forwarded_path (options r) req) (Some 30000%Z)])
  /\ (forall rest,
        passes req ->
        origin_form (url req) = true ->
        decodable (pathname (url req)) = true ->
        pathname (url req) = "/api" ++ rest ->
        boundary rest = false ->
        match_route (Gateway.routes env) (pathname (url req)) = None
        /\ Gateway.serve env w req
           = Sent [] {| status := 404;
                        body := JObject [("error", JString "Route not found")] |}).
Proof.
  split; [|split].
  - intros r. rewrite match_route_first. unfold Gateway.routes. split.
    + intros (before' & after' & Heq & Hm & Hno).
      apply map_eq_app in Heq. destruct Heq as (before & tl & Hregs & <- & Htl).
      apply map_eq_cons in Htl. destruct Htl as (g & after & -> & <- & _).
      exists before, g, after. split; [exact Hregs|]. split; [reflexivity|].
      split; [now apply mount_match_continues|].
      intros g' Hin Hc. apply mount_match_continues in Hc.
      pose proof (Hno (Gateway.register g') (in_map Gateway.register before g' Hin))
        as Hf.
      cbn [mount Gateway.register] in Hf. rewrite Hf in Hc. discriminate.
    + intros (before & g & after & Hregs & -> & Hc & Hno).
      exists (map Gateway.register before), (map Gateway.register after).
      split; [now rewrite Hregs, map_app|].
      split; [now apply mount_match_continues|].
      intros r' Hin. apply in_map_iff in Hin. destruct Hin as (g' & <- & Hin).
      destruct (mount_match (mount (Gateway.register g')) (pathname (url req))) eqn:E;
        [|reflexivity].
      exfalso. apply (Hno g' Hin). now apply mount_match_continues.
  - intros r Hpass Hm.
    assert (Hs : Gateway.serve env w req = proxied (options r) w req)
      by now rewrite (gateway_serve_passes w req env Hpass), gateway_handle, Hm.
    split; [exact Hs|]. rewrite Hs, proxied_trace.
    destruct (matched_is_registered env req r Hm) as (g & _ & ->). reflexivity.
  - intros rest Hpass _ Hd Hp Hb.
    assert (Hm : match_route (Gateway.routes env) (pathname (url req)) = None)
      by (rewrite Hp; now apply api_without_boundary).
    split; [exact Hm|].
    rewrite (gateway_serve_passes w req env Hpass), gateway_handle, Hm.
    apply gateway_local_not_found; [exact Hd| |]; rewrite Hp; reflexivity.
Qed.

(** C7, instance: /api/companies/42 is dispatched by its own registration. *)
Lemma C7_witness :
  Gateway.serve Sample.env_default Sample.echoing (Sample.GET "/api/companies/42")
  = Sent [Dispatch "http://lemlist-collector.railway.internal:8000" "GET"
            "/companies/42" (Some 30000%Z)]
         {| status := 200; body := JObject [("path", JString "/companies/42")] |}.
Proof.
  destruct (C7_first_match_at_boundary Sample.env_default Sample.echoing
              (Sample.GET "/api/companies/42")) as (_ & H & _).
  refine (proj1 (H (Gateway.register
                      {| Gateway.prefix := "/api/companies";
                         Gateway.replacement := "/companies";
                         Gateway.serviceName := "collector-companies";
                         Gateway.serviceTarget :=
                           "http://lemlist-collector.railway.internal:8000" |})
                   _ eq_refl)).
  split; [discriminate | reflexivity].
Defined.

(** C7 as stated fails.  /apifoo has the registered prefix /api as a
    literal string prefix, yet no registration matches it and the 404
    handler answers.  /api%zz has it too: nothing is dispatched and the
    error handler answers 500, the path not being decodable.  And a
    preflight for /api/classify/predict is answered by [cors] without any
    dispatch. *)
Lemma C7_counterexample :
  (String.prefix "/api" (pathname (url (Sample.GET "/apifoo"))) = true
   /\ match_route (Gateway.routes Sample.env_default)
        (pathname (url (Sample.GET "/apifoo"))) = None
   /\ Gateway.serve Sample.env_default Sample.echoing (Sample.GET "/apifoo")
      = Sent [] {| status := 404;
                   body := JObject [("error", JString "Route not found")] |})
  /\ (String.prefix "/api" (pathname (url (Sample.GET "/api%zz"))) = true
      /\ Gateway.serve Sample.env_default Sample.echoing (Sample.GET "/api%zz")
         = Sent [] {| status := 500;
                      body := JObject [("error", JString "Internal server error")] |})
  /\ (String.prefix "/api/classify"
        (pathname (url (Sample.OPTIONS "/api/classify/predict"))) = true
      /\ Gateway.serve Sample.env_default Sample.echoing
           (Sample.OPTIONS "/api/classify/predict")
         = Sent [] {| status := 204; body := JUndefined |}).
Proof.
  repeat split; reflexivity.
Qed.

(** C8 (as amended).  Take a request that is neither a preflight nor
    rejected by the body parser, and whose URL is in origin form with a
    path that decodes.  When no proxy registration matches it and neither GET route
    serves it, it is answered with exactly 404 and
    {error: "Route not found"}, in both servers.  The GET routes /health
    and /diagnostic serve the methods GET and HEAD on their path taken up
    to letter case and one trailing slash. *)
Theorem C8_unmatched_404 (env : Gateway.Env) (w : World) (req : Request) :
  passes req ->
  origin_form (url req) = true ->
  decodable (pathname (url req)) = true ->
  route_match "/health" (pathname (url req)) && get_method (method req) = false ->
  (match_route (Gateway.routes env) (pathname (url req)) = None ->
   route_match "/diagnostic" (pathname (url req)) && get_method (method req) = false ->
   Gateway.serve env w req
   = Sent [] {| status := 404;
                body := JObject [("error", JString "Route not found")] |})
  /\ (match_route Server.routes (pathname (url req)) = None ->
      Server.serve w req
      = Sent [] {| status := 404;
                   body := JObject [("error", JString "Route not found")] |}).
Proof.
  intros Hpass _ Hdec Hh. split.
  - intros Hm Hd.
    rewrite (gateway_serve_passes w req env Hpass), gateway_handle, Hm.
    now apply gateway_local_not_found.
  - intros Hm. rewrite (server_serve_passes w req Hpass), server_handle, Hm.
    now apply server_local_not_found.
Qed.

(** C8, instance: POST /login is matched by nothing. *)
Lemma C8_witness :
  Gateway.serve Sample.env_staging Sample.echoing (Sample.POST "/login")
  = Sent [] {| status := 404;
               body := JObject [("error", JString "Route not found")] |}
  /\ Server.serve Sample.echoing (Sample.POST "/login")
     = Sent [] {| status := 404;
                  body := JObject [("error", JString "Route not found")] |}.
Proof.
  destruct (C8_unmatched_404 Sample.env_staging Sample.echoing
              (Sample.POST "/login")) as [H1 H2].
  - split; [discriminate | reflexivity].
  - reflexivity.
  - reflexivity.
  - reflexivity.
  - split; [exact (H1 eq_refl eq_refl) | exact (H2 eq_refl)].
Defined.

(** C8 as stated fails.  The path /health/ is neither /health nor
    /diagnostic and no registered prefix is a prefix of it, yet GET
    /health/ is answered by the health route with status 200.  A preflight
    for /nothing is answered 204 by [cors]; GET /%, whose path does not
    decode, and a POST to /login whose body the parser rejects are
    answered 500 by the error handler. *)
Lemma C8_counterexample :
  (pathname (url (Sample.GET "/health/")) <> "/health"
   /\ pathname (url (Sample.GET "/health/")) <> "/diagnostic"
   /\ forallb (fun r => negb (String.prefix (mount r) "/health/"))
        (Gateway.routes Sample.env_default) = true
   /\ match_route (Gateway.routes Sample.env_default)
        (pathname (url (Sample.GET "/health/"))) = None
   /\ Gateway.serve Sample.env_default Sample.echoing (Sample.GET "/health/")
      = Sent [] {| status := 200;
                   body := JObject
                     [("status", JString "OK");
                      ("timestamp", JString "2024-05-02T08:30:00.000Z");
                      ("services", Gateway.health_services)] |})
  /\ (match_route (Gateway.routes Sample.env_default)
        (pathname (url (Sample.OPTIONS "/nothing"))) = None
      /\ Gateway.serve Sample.env_default Sample.echoing (Sample.OPTIONS "/nothing")
         = Sent [] {| status := 204; body := JUndefined |})
  /\ (match_route (Gateway.routes Sample.env_default)
        (pathname (url (Sample.GET "/%"))) = None
      /\ Gateway.serve Sample.env_default Sample.echoing (Sample.GET "/%")
         = Sent [] {| status := 500;
                      body := JObject [("error", JString "Internal server error")] |})
  /\ (match_route (Gateway.routes Sample.env_default)
        (pathname (url (Sample.POST_bad "/login"))) = None
      /\ Gateway.serve Sample.env_default Sample.echoing (Sample.POST_bad "/login")
         = Sent [] {| status := 500;
                      body := JObject [("error", JString "Internal server error")] |}).
Proof.
  repeat split; try reflexivity; discriminate.
Qed.



(** C10.  GET /diagnostic probes exactly three hardcoded URLs, in order:
    the collector's internal address with port 8000, with port 3000 and
    without a port, each at /status, with method GET and a timeout value of
    5000 ms.  The probes are the same for every environment and every
    world, so two runs that differ in COLLECTOR_URL or any other target
    setting probe the same URLs. *)
Theorem C10_diagnostic_probes_fixed
    (env : Gateway.Env) (w : World) (req : Request) :
  method req = "GET" ->
  pathname (url req) = "/diagnostic" ->
  (exists res,
     Gateway.handle env w req
     = Sent [ Fetch "http://lemlist-collector.railway.internal:8000/status" "GET" 5000%Z;
              Fetch "http://lemlist-collector.railway.internal:3000/status" "GET" 5000%Z;
              Fetch "http://lemlist-collector.railway.internal/status" "GET" 5000%Z ]
            res)
  /\ (forall env' w',
        exists res res',
          Gateway.handle env w req = Sent
            (map (fun entry => Fetch (snd entry ++ "/status") "GET" 5000%Z)
               Gateway.servicesWithPort) res
          /\ Gateway.handle env' w' req = Sent
               (map (fun entry => Fetch (snd entry ++ "/status") "GET" 5000%Z)
                  Gateway.servicesWithPort) res').
Proof.
  intros Hmeth Hp.
  assert (H : forall env0 w0,
             exists res,
               Gateway.handle env0 w0 req
               = Sent [ Fetch "http://lemlist-collector.railway.internal:8000/status"
                          "GET" 5000%Z;
                        Fetch "http://lemlist-collector.railway.internal:3000/status"
                          "GET" 5000%Z;
                        Fetch "http://lemlist-collector.railway.internal/status"
                          "GET" 5000%Z ] res).
  { intros env0 w0. rewrite gateway_handle, Hp.
    change (match_route (Gateway.routes env0) "/diagnostic") with (@None Route).
    cbn [run]. rewrite Hp, Hmeth.
    change (route_match "/health" "/diagnostic" && get_method "GET") with false.
    change (route_match "/diagnostic" "/diagnostic" && get_method "GET") with true.
    cbv iota.
    destruct (diagnostic_trace w0 req) as [res ->]. now exists res. }
  split.
  - apply H.
  - intros env' w'. destruct (H env w) as [res Hres].
    destruct (H env' w') as [res' Hres'].
    exists res, res'. split; [exact Hres | exact Hres'].
Qed.

(** C10, instance: the probes on a deployment that overrides every
    target, with every probe failing. *)
Lemma C10_witness :
  exists res,
    Gateway.handle Sample.env_staging (Sample.failing Sample.refused)
      (Sample.GET "/diagnostic")
    = Sent [ Fetch "http://lemlist-collector.railway.internal:8000/status" "GET" 5000%Z;
             Fetch "http://lemlist-collector.railway.internal:3000/status" "GET" 5000%Z;
             Fetch "http://lemlist-collector.railway.internal/status" "GET" 5000%Z ]
           res.
Proof.
  exact (proj1 (C10_diagnostic_probes_fixed Sample.env_staging
                  (Sample.failing Sample.refused) (Sample.GET "/diagnostic")
                  eq_refl eq_refl)).
Defined.

(* ================================================================== *)
(** ** Outbound calls *)



(* ================================================================== *)
(** ** Letter case: matching and rewriting *)

Lemma lower_slash (c : ascii) : Ascii.eqb (lower c) "/" = Ascii.eqb c "/".
Proof.
  destruct c as [[] [] [] [] [] [] [] []]; reflexivity.
Qed.

Lemma lowercase_app (a b : string) :
  lowercase (a ++ b) = lowercase a ++ lowercase b.
Proof.
  induction a as [|c a IH]; [reflexivity|]. cbn [append lowercase]. now rewrite IH.
Qed.

Lemma lowercase_length (s : string) :
  String.length (lowercase s) = String.length s.
Proof.
  induction s as [|c s IH]; [reflexivity|]. cbn [lowercase String.length].
  now rewrite IH.
Qed.

(** Matching a mount path looks at the path's letters in lower case
    only. *)
Lemma mount_match_lowercase (m s s' : string) :
  lowercase s = lowercase s' -> mount_match m s = mount_match m s'.
Proof.
  unfold mount_match. revert s s'. induction m as [|a m IH]; intros s s' H.
  - cbn [strip_ci].
    destruct s as [|c s], s' as [|c' s']; try discriminate; [reflexivity|].
    cbn [lowercase] in H. injection H as Hc _.
    cbn [boundary]. now rewrite <- (lower_slash c), <- (lower_slash c'), Hc.
  - destruct s as [|c s], s' as [|c' s']; try discriminate; [reflexivity|].
    cbn [lowercase] in H. injection H as Hc Hs.
    cbn [strip_ci]. rewrite Hc.
    destruct (Ascii.eqb (lower a) (lower c')); [|reflexivity].
    now apply IH.
Qed.

Lemma match_route_lowercase (routes : list Route) (s s' : string) :
  lowercase s = lowercase s' -> match_route routes s = match_route routes s'.
Proof.
  intros H. unfold match_route.
  induction routes as [|r routes IH]; [reflexivity|]. cbn [find].
  rewrite (mount_match_lowercase (mount r) s s' H).
  destruct (mount_match (mount r) s'); [reflexivity | exact IH].
Qed.

(** A string of the prefix's length that is not the prefix is not
    stripped. *)
Lemma strip_other (p head rest : string) :
  String.length head = String.length p -> head <> p ->
  strip p (head ++ rest) = None.
Proof.
  revert head. induction p as [|a p IH]; intros head Hlen Hne.
  - destruct head; [now elim Hne | discriminate].
  - destruct head as [|c head]; [discriminate|].
    cbn [append strip]. destruct (Ascii.eqb_spec a c) as [->|]; [|reflexivity].
    apply IH; [now inversion Hlen|]. intros ->. now apply Hne.
Qed.

(** X3.  Mount paths are matched without regard to letter case, but the
    rewrite rule [^prefix] is case-sensitive.  A request whose path
    continues a specific prefix written in another letter case is matched
    by that registration all the same; its URL is not rewritten, and the
    one upstream call goes to the registration's target with the URL as it
    came, joined to the target's root path. *)
Theorem X3_rewrite_case_sensitive
    (env : Gateway.Env) (w : World) (req : Request)
    (g : Gateway.Registration) (head rest : string) :
  passes req ->
  origin_form (url req) = true ->
  In g (Gateway.specific env) ->
  pathname (url req) = head ++ rest ->
  lowercase head = Gateway.prefix g ->
  head <> Gateway.prefix g ->
  boundary rest = true ->
  base_url (Gateway.serviceTarget g) = true ->
  match_route (Gateway.routes env) (pathname (url req)) = Some (Gateway.register g)
  /\ rewritten (options (Gateway.register g)) req = url req
  /\ trace_of (Gateway.serve env w req)
     = [Dispatch (Gateway.serviceTarget g) (method req) (urlJoin "/" (url req))
          (Some 30000%Z)].
Proof.
  intros Hpass _ Hin Hp Hlow Hne Hbd Hb.
  assert (Hm : match_route (Gateway.routes env) (pathname (url req))
               = Some (Gateway.register g)).
  { rewrite Hp.
    rewrite (match_route_lowercase _ (head ++ rest) (Gateway.prefix g ++ rest)).
    - now apply specific_route_matched.
    - rewrite !lowercase_app, Hlow. f_equal.
      simpl in Hin. repeat destruct Hin as [<-|Hin]; try contradiction; reflexivity. }
  assert (Hr : rewritten (options (Gateway.register g)) req = url req).
  { unfold rewritten. simpl pathRewrite. cbn [rewritePath append apply_rule].
    pose proof (url_split (url req)) as Hu. rewrite Hp, append_assoc in Hu.
    rewrite Hu at 1. rewrite strip_other; [reflexivity| |exact Hne].
    now rewrite <- Hlow, lowercase_length. }
  split; [exact Hm|]. split; [exact Hr|].
  rewrite (gateway_serve_passes w req env Hpass), gateway_handle, Hm, proxied_trace.
  unfold forwarded_path. rewrite Hr. simpl target.
  now rewrite (base_url_root _ Hb).
Qed.

(** X3, instance: /API/Classify/predict reaches the classifier with its
    path untouched. *)
Lemma X3_witness :
  trace_of (Gateway.serve Sample.env_default Sample.echoing
              (Sample.GET "/API/Classify/predict"))
  = [Dispatch "http://classifier.railway.internal:8000" "GET"
       "/API/Classify/predict" (Some 30000%Z)].
Proof.
  refine (proj2 (proj2 (X3_rewrite_case_sensitive Sample.env_default Sample.echoing
            (Sample.GET "/API/Classify/predict")
            {| Gateway.prefix := "/api/classify"; Gateway.replacement := "";
               Gateway.serviceName := "classifier";
               Gateway.serviceTarget := "http://classifier.railway.internal:8000" |}
            "/API/Classify" "/predict" _ eq_refl _ eq_refl eq_refl _ eq_refl eq_refl))).
  - split; [discriminate | reflexivity].
  - simpl. auto.
  - discriminate.
Defined.

(* ================================================================== *)
(** ** The registrations compared with one another *)

(** Two prefixes that both start a path, up to letter case: the shorter
    one starts the longer one. *)
Lemma strip_ci_common (p q s r1 r2 : string) :
  strip_ci p s = Some r1 ->
  strip_ci q s = Some r2 ->
  String.length p <= String.length q ->
  exists t, strip_ci p q = Some t.
Proof.
  revert q s. induction p as [|a p IH]; intros q s H1 H2 Hlen.
  - now exists q.
  - destruct q as [|b q]; [simpl in Hlen; lia|].
    destruct s as [|c s]; [discriminate|].
    cbn [strip_ci] in *.
    destruct (Ascii.eqb_spec (lower a) (lower c)) as [Ea|]; [|discriminate].
    destruct (Ascii.eqb_spec (lower b) (lower c)) as [Eb|]; [|discriminate].
    rewrite Ea, <- Eb, Ascii.eqb_refl.
    apply (IH q s H1 H2). simpl in Hlen. lia.
Qed.

Lemma strip_ci_app_inv (p q s rest : string) :
  strip_ci (p ++ q) s = Some rest ->
  exists mid, strip_ci p s = Some mid /\ strip_ci q mid = Some rest.
Proof.
  revert s. induction p as [|a p IH]; intros s H.
  - now exists s.
  - destruct s as [|c s]; [discriminate|].
    cbn [append strip_ci] in *.
    destruct (Ascii.eqb (lower a) (lower c)); [|discriminate].
    now apply IH.
Qed.

Lemma lower_slash_inv (c : ascii) :
  Ascii.eqb (lower "/") (lower c) = true -> Ascii.eqb c "/" = true.
Proof.
  destruct c as [[] [] [] [] [] [] [] []]; vm_compute; intros H;
    first [reflexivity | discriminate H].
Qed.

(** A path matched under /api/... is matched by /api. *)
Lemma under_api (q path rest : string) :
  strip_ci ("/api" ++ String "/" q) path = Some rest ->
  mount_match "/api" path = true.
Proof.
  intros H. apply strip_ci_app_inv in H. destruct H as (mid & H1 & H2).
  unfold mount_match. rewrite H1.
  destruct mid as [|b mid]; [reflexivity|].
  cbn [strip_ci] in H2. cbn [boundary].
  destruct (Ascii.eqb (lower "/") (lower b)) eqn:E; [|discriminate].
  now apply lower_slash_inv.
Qed.

Lemma mount_match_strip (m path : string) :
  mount_match m path = true ->
  exists rest, strip_ci m path = Some rest.
Proof.
  intros H. apply (mount_match_boundary m path) in H.
  destruct H as (rest & H & _). now exists rest.
Qed.

(** X4.  At most one specific registration matches a path, and every path
    that a specific registration matches is matched by the catch-all too:
    among the six registrations only the order keeps the catch-all from
    taking the requests of the specific ones. *)
Theorem X4_specific_exclusive_and_covered
    (env : Gateway.Env) (path : string) (g : Gateway.Registration) :
  In g (Gateway.specific env) ->
  mount_match (Gateway.prefix g) path = true ->
  mount_match (Gateway.prefix (Gateway.catchall env)) path = true
  /\ (forall g',
        In g' (Gateway.specific env) ->
        mount_match (Gateway.prefix g') path = true -> g' = g).
Proof.
  intros Hin Hm. split.
  - simpl in Hin.
    repeat destruct Hin as [<-|Hin]; try contradiction;
      apply mount_match_strip in Hm;
      destruct Hm as [rest Hr]; simpl Gateway.prefix in *;
      eapply under_api; exact Hr.
  - intros g' Hin' Hm'. simpl in Hin, Hin'.
    repeat destruct Hin as [<-|Hin]; try contradiction;
      repeat destruct Hin' as [<-|Hin']; try contradiction;
      try reflexivity; exfalso;
      apply mount_match_strip in Hm;
      apply mount_match_strip in Hm';
      destruct Hm as [r1 H1]; destruct Hm' as [r2 H2];
      simpl Gateway.prefix in *;
      first
        [ destruct (strip_ci_common _ _ _ _ _ H1 H2
                      ltac:(apply Nat.leb_le; reflexivity)) as [t Ht];
          vm_compute in Ht; discriminate Ht
        | destruct (strip_ci_common _ _ _ _ _ H2 H1
                      ltac:(apply Nat.leb_le; reflexivity)) as [t Ht];
          vm_compute in Ht; discriminate Ht ].
Qed.

(** X4, instance: /API/Companies/42 is matched by the companies
    registration, hence by the catch-all and by no other specific one. *)
Lemma X4_witness :
  mount_match "/api" "/API/Companies/42" = true.
Proof.
  exact (proj1 (X4_specific_exclusive_and_covered Sample.env_default
                  "/API/Companies/42"
                  {| Gateway.prefix := "/api/companies";
                     Gateway.replacement := "/companies";
                     Gateway.serviceName := "collector-companies";
                     Gateway.serviceTarget :=
                       "http://lemlist-collector.railway.internal:8000" |}
                  (or_intror (or_intror (or_intror (or_intror (or_introl eq_refl)))))
                  eq_refl)).
Defined.



(* ================================================================== *)
(** ** The diagnostic report *)



(* ================================================================== *)
(** ** What the error bodies disclose *)

(** X7.  Only the 503 body discloses the target and reads the clock: for a
    failure whose code is not ECONNREFUSED the answer of the gateway's
    [onError] is the same for every target and every time, and its body
    has neither a target nor a timestamp field. *)
Theorem X7_target_only_in_503
    (name dest dest' : string) (e : Js.Error) (req : Request) (time time' : string) :
  code e <> Some "ECONNREFUSED" ->
  Gateway.onError name dest e req time = Gateway.onError name dest' e req time'
  /\ Js.get "target" (body (Gateway.onError name dest e req time)) = None
  /\ Js.get "timestamp" (body (Gateway.onError name dest e req time)) = None.
Proof.
  intros Hc. unfold Gateway.onError.
  destruct (code_is e "ECONNREFUSED") eqn:E.
  { exfalso. apply Hc. now apply code_is_true. }
  destruct (code_is e "ETIMEDOUT"); repeat split.
Qed.

(** X7, instance: a timeout of the collector behind two different
    addresses. *)
Lemma X7_witness :
  Gateway.onError "collector-collect" "http://10.0.0.4:9004" Sample.timed_out
    (Sample.POST "/api/collect/ingest") "2024-05-01T10:00:00.000Z"
  = Gateway.onError "collector-collect" "http://lemlist-collector.railway.internal:8000"
      Sample.timed_out (Sample.POST "/api/collect/ingest") "2024-06-01T00:00:00.000Z".
Proof.
  refine (proj1 (X7_target_only_in_503 "collector-collect" "http://10.0.0.4:9004"
                   "http://lemlist-collector.railway.internal:8000"
                   Sample.timed_out (Sample.POST "/api/collect/ingest")
                   "2024-05-01T10:00:00.000Z" "2024-06-01T00:00:00.000Z" _)).
  discriminate.
Defined.

(* ================================================================== *)
(** ** The query string *)
















(* ================================================================== *)
(** ** The server of server.js *)







(* ================================================================== *)
(** ** The gateway's catch-all *)


